(** * PyETo_crop: the FAO-56 Penman-Monteith chain of [pyeto_crop/fao_crop.py]

    A shallow embedding of the ten functions of the module and the properties
    of its specification.

    Numbers.  The functions are written for Python scalars ([int], [float]).
    In the main development a Python number is a real number: the operations
    [+ - *] are those of [R] and rounding and overflow of binary64 are not
    modelled.  What is modelled of the run-time is what decides whether a
    call returns or fails:
    - Python's true division [x / y] raises [ZeroDivisionError] when [y] is
      zero;
    - [numpy.log] and arithmetic on the [numpy.float64] it returns never
      raise: outside the domain they give [nan] or an infinity (with a
      [RuntimeWarning] only);
    - a call that omits a parameter without a default raises [TypeError].

    [Module Binary64] embeds [penman_monteith] a second time, on
    IEEE-754 binary64 values (Rocq's primitive floats, the same format and
    rounding as a Python [float]), to evaluate the reference scenario bit for
    bit and to follow non-finite values through the combiner: there a scalar
    is either a Python [float] or a [numpy.float64], since the two divide by
    zero differently. *)

From Stdlib Require Import Reals Lra.
From Stdlib Require Import ZArith QArith Qabs Floats.

Set Warnings "-inexact-float".

Local Open Scope R_scope.

(** ** Python: exceptions and true division *)

Inductive exn : Set :=
| ZeroDivisionError
| TypeError.

Inductive result (A : Type) : Type :=
| Ok (a : A)
| Raise (e : exn).

Arguments Ok {A} a.
Arguments Raise {A} e.

Definition bind {A B : Type} (m : result A) (f : A -> result B) : result B :=
  match m with
  | Ok a => f a
  | Raise e => Raise e
  end.

Notation "x <- m ;; k" := (bind m (fun x => k))
  (at level 61, m at next level, right associativity).

(** [x / y] on Python numbers. *)
Definition truediv (x y : R) : result R :=
  if Req_dec_T y 0 then Raise ZeroDivisionError else Ok (x / y).

(** ** NumPy: the [numpy.float64] scalars produced by [numpy.log]

    A [float64] is a finite value, an infinity or [nan].  The sign of an
    infinity is not tracked (it depends on the sign of a floating-point
    zero, which a real number does not have). *)

Inductive float64 : Type :=
| Finite (r : R)
| Infinite
| NaN.

(** [numpy.log x] for a Python float [x]: [-inf] at zero, [nan] below. *)
Definition np_log (x : R) : float64 :=
  if Rlt_dec 0 x then Finite (ln x)
  else if Req_dec_T x 0 then Infinite
  else NaN.

(** [a * b] on two [numpy.float64]: [inf * 0] is [nan]. *)
Definition np_multiply (a b : float64) : float64 :=
  match a, b with
  | Finite x, Finite y => Finite (x * y)
  | NaN, _ | _, NaN => NaN
  | Infinite, Finite y => if Req_dec_T y 0 then NaN else Infinite
  | Finite x, Infinite => if Req_dec_T x 0 then NaN else Infinite
  | Infinite, Infinite => Infinite
  end.

(** [a / y] for a [numpy.float64] [a] and a Python float [y]: NumPy's
    division, which does not raise. *)
Definition np_true_divide (a : float64) (y : R) : float64 :=
  match a with
  | Finite x =>
      if Req_dec_T y 0
      then (if Req_dec_T x 0 then NaN else Infinite)
      else Finite (x / y)
  | Infinite => Infinite
  | NaN => NaN
  end.


(** ** The functions of [fao_crop.py], in the order of the file *)

(** [return 2.501 - (2.361 * 10**(-3)) * t] *)
Definition lat (t : R) : R :=
  2.501 - (2.361 * powerRZ 10 (-3)) * t.

(** [return pres / ((1.01 * (t + 273)) * 0.287)] *)
Definition pa (pres t : R) : result R :=
  truediv pres ((1.01 * (t + 273)) * 0.287).

(** [return (np.log((zm - d) / zom) * np.log((zh - d) / zoh)) / (k**(2) * ws)]
    ([h] is a parameter of the function that its body does not read). *)
Definition ra (d zom zoh ws h zh zm k : R) : result float64 :=
  x1 <- truediv (zm - d) zom ;;
  x2 <- truediv (zh - d) zoh ;;
  Ok (np_true_divide (np_multiply (np_log x1) (np_log x2)) (k ^ 2 * ws)).

(** [return 2/3 * h] *)
Definition d (h : R) : R := 2 / 3 * h.

(** [return 0.123 * h] *)
Definition zom (h : R) : R := 0.123 * h.

(** [return 0.1 * zom] *)
Definition zoh (zom : R) : R := 0.1 * zom.

(** [return rl / LAIactive] *)
Definition rs (LAIactive rl : R) : result R :=
  truediv rl LAIactive.

(** [return 0.5 * LAI] *)
Definition LAIactive (LAI : R) : R := 0.5 * LAI.

(** [return 24 * h] *)
Definition LAI (h : R) : R := 24 * h.

(** [[
    a1 = delta_svp * (net_rad - shf)/86400 + pa * cp * ((svp - avp) / (ra))
    a2 = delta_svp + psy * (1 + (rs / ra))
    a3 = 1 / lat
    return (a1 / a2) * a3 * 86400
    ]]
    The divisions are taken in the order Python evaluates them. *)
Definition penman_monteith
  (lat net_rad t ws svp avp delta_svp d psy ra pa pres rs cp shf : R)
  : result R :=
  q1 <- truediv (delta_svp * (net_rad - shf)) 86400 ;;
  q2 <- truediv (svp - avp) ra ;;
  let a1 := q1 + pa * cp * q2 in
  q3 <- truediv rs ra ;;
  let a2 := delta_svp + psy * (1 + q3) in
  a3 <- truediv 1 lat ;;
  q4 <- truediv a1 a2 ;;
  Ok (q4 * a3 * 86400).

(** ** Calls: parameters with and without a default

    An argument of a call is given ([Some v]) or omitted ([None]).  An
    omitted argument takes the default of the [def] line; where the [def]
    line gives none, the call raises [TypeError]. *)

Inductive param : Type :=
| Required
| Default (v : R).

Definition bind_arg (p : param) (a : option R) : result R :=
  match a, p with
  | Some v, _ => Ok v
  | None, Default v => Ok v
  | None, Required => Raise TypeError
  end.

(** [def lat(t)] *)
Definition call_lat (t : option R) : result R :=
  t <- bind_arg Required t ;;
  Ok (lat t).

(** [def pa(pres, t)] *)
Definition call_pa (pres t : option R) : result R :=
  pres <- bind_arg Required pres ;;
  t <- bind_arg Required t ;;
  pa pres t.

(** [def ra(d, zom, zoh, ws, h=0.12, zh=2, zm=10, k=0.41)] *)
Definition call_ra (d zom zoh ws h zh zm k : option R) : result float64 :=
  d <- bind_arg Required d ;;
  zom <- bind_arg Required zom ;;
  zoh <- bind_arg Required zoh ;;
  ws <- bind_arg Required ws ;;
  h <- bind_arg (Default 0.12) h ;;
  zh <- bind_arg (Default 2) zh ;;
  zm <- bind_arg (Default 10) zm ;;
  k <- bind_arg (Default 0.41) k ;;
  ra d zom zoh ws h zh zm k.

(** [def d(h=0.12)] *)
Definition call_d (h : option R) : result R :=
  h <- bind_arg (Default 0.12) h ;;
  Ok (d h).

(** [def zom(h=0.12)] *)
Definition call_zom (h : option R) : result R :=
  h <- bind_arg (Default 0.12) h ;;
  Ok (zom h).

(** [def zoh(zom)] *)
Definition call_zoh (zom : option R) : result R :=
  zom <- bind_arg Required zom ;;
  Ok (zoh zom).

(** [def rs(LAIactive, rl)] *)
Definition call_rs (LAIactive rl : option R) : result R :=
  LAIactive <- bind_arg Required LAIactive ;;
  rl <- bind_arg Required rl ;;
  rs LAIactive rl.

(** [def LAIactive(LAI)] *)
Definition call_LAIactive (LAI : option R) : result R :=
  LAI <- bind_arg Required LAI ;;
  Ok (LAIactive LAI).

(** [def LAI(h=0.12)] *)
Definition call_LAI (h : option R) : result R :=
  h <- bind_arg (Default 0.12) h ;;
  Ok (LAI h).

(** [def penman_monteith(lat, net_rad, t, ws, svp, avp, delta_svp, d, psy,
    ra, pa, pres, rs=78, cp=0.001013, shf=0.0)] *)
Definition call_penman_monteith
  (lat net_rad t ws svp avp delta_svp d psy ra pa pres rs cp shf : option R)
  : result R :=
  lat <- bind_arg Required lat ;;
  net_rad <- bind_arg Required net_rad ;;
  t <- bind_arg Required t ;;
  ws <- bind_arg Required ws ;;
  svp <- bind_arg Required svp ;;
  avp <- bind_arg Required avp ;;
  delta_svp <- bind_arg Required delta_svp ;;
  d <- bind_arg Required d ;;
  psy <- bind_arg Required psy ;;
  ra <- bind_arg Required ra ;;
  pa <- bind_arg Required pa ;;
  pres <- bind_arg Required pres ;;
  rs <- bind_arg (Default 78) rs ;;
  cp <- bind_arg (Default 0.001013) cp ;;
  shf <- bind_arg (Default 0.0) shf ;;
  penman_monteith lat net_rad t ws svp avp delta_svp d psy ra pa pres rs cp shf.

(** ** [penman_monteith] on IEEE-754 binary64 *)

Module Binary64.

Local Open Scope float_scope.

(** A scalar is a Python [float] (an [int] argument is converted exactly)
    or a [numpy.float64]; both hold a binary64 value. *)
Inductive num : Set :=
| PyFloat (x : float)
| NpFloat (x : float).

Definition value (a : num) : float :=
  match a with
  | PyFloat x | NpFloat x => x
  end.

(** A binary operator is Python's when both operands are Python floats and
    NumPy's, with a [numpy.float64] result, as soon as one is NumPy's. *)
Definition arith (op : float -> float -> float) (a b : num) : num :=
  match a, b with
  | PyFloat x, PyFloat y => PyFloat (op x y)
  | _, _ => NpFloat (op (value a) (value b))
  end.

Definition add : num -> num -> num := arith PrimFloat.add.
Definition sub : num -> num -> num := arith PrimFloat.sub.
Definition mul : num -> num -> num := arith PrimFloat.mul.

(** Python's [float.__truediv__] raises on a zero divisor; NumPy's division
    returns the IEEE quotient ([inf] or [nan]) with a warning. *)
Definition truediv (a b : num) : result num :=
  match a, b with
  | PyFloat x, PyFloat y =>
      if (y =? 0) then Raise ZeroDivisionError else Ok (PyFloat (x / y))
  | _, _ => Ok (NpFloat (value a / value b))
  end.

Declare Scope num_scope.
Delimit Scope num_scope with num.
Bind Scope num_scope with num.
Infix "+" := add : num_scope.
Infix "-" := sub : num_scope.
Infix "*" := mul : num_scope.

Definition penman_monteith
  (lat net_rad t ws svp avp delta_svp d psy ra pa pres rs cp shf : num)
  : result num :=
  q1 <- truediv (delta_svp * (net_rad - shf))%num (PyFloat 86400) ;;
  q2 <- truediv (svp - avp)%num ra ;;
  let a1 := (q1 + pa * cp * q2)%num in
  q3 <- truediv rs ra ;;
  let a2 := (delta_svp + psy * (PyFloat 1 + q3))%num in
  a3 <- truediv (PyFloat 1) lat ;;
  q4 <- truediv a1 a2 ;;
  Ok (q4 * a3 * PyFloat 86400)%num.



End Binary64.

Abbreviation PyFloat := Binary64.PyFloat.
Abbreviation NpFloat := Binary64.NpFloat.

(** ** The closed forms of the specification

    These follow the words of the specification, not the code:
    [term1 = delta_svp (net_rad - shf) / 86400 + pa cp (svp - avp) / ra],
    [term2 = delta_svp + psy (1 + rs / ra)],
    [ET = (term1 / term2) (1 / lat) 86400]. *)







(** ** Basic facts about division *)

Lemma truediv_nonzero (x y : R) : y <> 0 -> truediv x y = Ok (x / y).
Proof.
  intros Hy. unfold truediv.
  destruct (Req_dec_T y 0) as [E | _]; [contradiction | reflexivity].
Qed.


Lemma truediv_raises_iff (x y : R) (e : exn) :
  truediv x y = Raise e <-> y = 0 /\ e = ZeroDivisionError.
Proof.
  unfold truediv. destruct (Req_dec_T y 0) as [E | N]; split.
  - intros H. injection H as <-. now split.
  - intros [_ ->]. reflexivity.
  - discriminate.
  - intros [E _]. contradiction.
Qed.

Lemma bind_Ok {A B : Type} (a : A) (f : A -> result B) :
  bind (Ok a) f = f a.
Proof. reflexivity. Qed.


(** ** The Penman-Monteith combiner *)



(** C10: the result of [penman_monteith] does not depend on [t], [ws], [d]
    and [pres]: two calls that agree on the other eleven arguments return
    the same outcome, on real numbers and on binary64 values alike. *)
Theorem penman_monteith_ignores_t_ws_d_pres :
  (forall lat net_rad svp avp delta_svp psy ra pa rs cp shf
          t ws d pres t' ws' d' pres' : R,
      penman_monteith lat net_rad t ws svp avp delta_svp d psy ra pa pres
        rs cp shf
      = penman_monteith lat net_rad t' ws' svp avp delta_svp d' psy ra pa
          pres' rs cp shf)
  /\ (forall lat net_rad svp avp delta_svp psy ra pa rs cp shf
             t ws d pres t' ws' d' pres' : Binary64.num,
      Binary64.penman_monteith lat net_rad t ws svp avp delta_svp d psy ra
        pa pres rs cp shf
      = Binary64.penman_monteith lat net_rad t' ws' svp avp delta_svp d'
          psy ra pa pres' rs cp shf).
Proof.
  split; intros; reflexivity.
Qed.

(** ** Air and thermodynamic properties *)

Lemma lat_linear (t : R) : lat t = 2.501 - 0.002361 * t.
Proof.
  unfold lat. simpl powerRZ. lra.
Qed.

Lemma pa_denominator_zero_iff (t : R) :
  (1.01 * (t + 273)) * 0.287 = 0 <-> t = -273.
Proof.
  split; intros H; [nra | subst t; lra].
Qed.



(** ** Canopy geometry *)

(** C3: for every [h >= 0] the geometry functions are the stated linear
    transforms, [zom h = 0.123 h], [d h = (2/3) h],
    [zoh (zom h) = 0.1 zom h], [LAI h = 24 h] and
    [LAIactive (LAI h) = 0.5 LAI h], with non-negative values; at [h = 0]
    every call returns zero and none raises. *)
Theorem canopy_geometry_linear :
  (forall h : R,
      0 <= h ->
      (zom h = 0.123 * h
       /\ d h = 2 / 3 * h
       /\ zoh (zom h) = 0.1 * zom h
       /\ LAI h = 24 * h
       /\ LAIactive (LAI h) = 0.5 * LAI h)
      /\ (zoh (zom h) = 0.0123 * h /\ LAIactive (LAI h) = 12 * h)
      /\ (0 <= zom h /\ 0 <= d h /\ 0 <= zoh (zom h) /\ 0 <= LAI h
          /\ 0 <= LAIactive (LAI h)))
  /\ (call_zom (Some 0) = Ok 0
      /\ call_d (Some 0) = Ok 0
      /\ call_zoh (Some (zom 0)) = Ok 0
      /\ call_LAI (Some 0) = Ok 0
      /\ call_LAIactive (Some (LAI 0)) = Ok 0).
Proof.
  split.
  - intros h Hh. unfold zom, d, zoh, LAI, LAIactive.
    repeat split; lra.
  - unfold call_zom, call_d, call_zoh, call_LAI, call_LAIactive.
    unfold bind_arg, bind, zom, d, zoh, LAI, LAIactive.
    repeat split; f_equal; lra.
Qed.

Lemma canopy_geometry_linear_witness :
  zom 0.12 = 0.123 * 0.12
  /\ d 0.12 = 2 / 3 * 0.12
  /\ zoh (zom 0.12) = 0.1 * zom 0.12
  /\ LAI 0.12 = 24 * 0.12
  /\ LAIactive (LAI 0.12) = 0.5 * LAI 0.12.
Proof.
  apply (proj1 canopy_geometry_linear 0.12). lra.
Defined.

(** ** NumPy scalars *)










(** ** Aerodynamic resistance *)









(** ** Surface resistance *)

(** C4, as the code has it: [rs] returns [rl / LAIactive] for every
    [LAIactive] other than zero, negative ones included, and raises
    [ZeroDivisionError], its only exception, exactly when [LAIactive] is
    zero. *)
Theorem rs_quotient_unless_zero :
  forall LAIactive rl : R,
    (LAIactive <> 0 -> rs LAIactive rl = Ok (rl / LAIactive))
    /\ (LAIactive > 0 -> rs LAIactive rl = Ok (rl / LAIactive))
    /\ (forall e : exn,
        rs LAIactive rl = Raise e
        <-> LAIactive = 0 /\ e = ZeroDivisionError).
Proof.
  intros LAIactive rl. unfold rs. split; [| split].
  - apply truediv_nonzero.
  - intros H. apply truediv_nonzero. lra.
  - intros e. apply truediv_raises_iff.
Qed.

Lemma rs_quotient_unless_zero_witness :
  rs 1.44 100 = Ok (100 / 1.44)
  /\ rs 0 100 = Raise ZeroDivisionError.
Proof.
  split.
  - apply (rs_quotient_unless_zero 1.44 100). lra.
  - apply (rs_quotient_unless_zero 0 100). split; reflexivity.
Defined.

(** The claim C4 fails for a negative active leaf area: the call returns a
    (negative) resistance and raises nothing. *)
Lemma rs_negative_leaf_area_returns :
  -1 <= 0
  /\ rs (-1) 100 = Ok (-100)
  /\ (forall e : exn, rs (-1) 100 <> Raise e).
Proof.
  assert (H : rs (-1) 100 = Ok (-100)).
  { unfold rs. rewrite truediv_nonzero by lra. f_equal. lra. }
  split; [lra | split; [exact H |]].
  intros e. rewrite H. discriminate.
Qed.

(** ** Air and thermodynamic properties: invalid inputs *)

(** C8, as the code has it: [lat] never raises, whatever the sign of its
    result; [pa] returns [pres / (1.01 (t + 273) 0.287)] whenever
    [t <> -273], below absolute zero and for [pres <= 0] too, and raises
    [ZeroDivisionError], its only exception, exactly at [t = -273]. *)
Theorem lat_total_pa_raises_only_at_minus_273 :
  (forall t : R, call_lat (Some t) = Ok (2.501 - 0.002361 * t))
  /\ (forall pres t : R,
      (t <> -273 -> pa pres t = Ok (pres / (1.01 * (t + 273) * 0.287)))
      /\ (forall e : exn,
          pa pres t = Raise e <-> t = -273 /\ e = ZeroDivisionError)).
Proof.
  split.
  - intros t. unfold call_lat. simpl. now rewrite lat_linear.
  - intros pres t. unfold pa. split.
    + intros Ht. apply truediv_nonzero.
      intros H. now apply pa_denominator_zero_iff in H.
    + intros e. rewrite truediv_raises_iff, pa_denominator_zero_iff.
      reflexivity.
Qed.

Lemma lat_total_pa_raises_only_at_minus_273_witness :
  pa 101.3 20 = Ok (101.3 / (1.01 * (20 + 273) * 0.287))
  /\ pa 101.3 (-273) = Raise ZeroDivisionError.
Proof.
  split.
  - apply (proj2 lat_total_pa_raises_only_at_minus_273 101.3 20). lra.
  - apply (proj2 lat_total_pa_raises_only_at_minus_273 101.3 (-273)).
    split; reflexivity.
Defined.

(** The claim C8 fails at [t = 2000] (the latent heat returned is negative),
    at a negative pressure and below absolute zero: each call returns. *)
Lemma lat_pa_return_on_invalid_inputs :
  (2.501 - 0.002361 * 2000 <= 0 /\ call_lat (Some 2000) = Ok (-2.221))
  /\ (-5 <= 0 /\ pa (-5) 20 = Ok (-5 / (1.01 * (20 + 273) * 0.287)))
  /\ (-300 <= -273
      /\ pa 101.3 (-300) = Ok (101.3 / (1.01 * (-300 + 273) * 0.287))).
Proof.
  split; [| split]; (split; [lra |]).
  - unfold call_lat. simpl. rewrite lat_linear. f_equal. lra.
  - unfold pa. apply truediv_nonzero. lra.
  - unfold pa. apply truediv_nonzero. lra.
Qed.

(** ** Default arguments *)

(** C9, as the code has it: [h = 0.12] in [d], [zom], [LAI] and [ra],
    [zh = 2], [zm = 10] and [k = 0.41] in [ra], [rs = 78], [cp = 0.001013]
    and [shf = 0] in [penman_monteith] are defaults: a call that omits one
    behaves as the call that passes the listed value.  [rl] has no default
    in [rs]: a call that omits it raises [TypeError]. *)
Theorem default_arguments :
  (call_d None = call_d (Some 0.12)
   /\ call_zom None = call_zom (Some 0.12)
   /\ call_LAI None = call_LAI (Some 0.12))
  /\ (forall d zom zoh ws h zh zm k : option R,
      call_ra d zom zoh ws None zh zm k
      = call_ra d zom zoh ws (Some 0.12) zh zm k
      /\ call_ra d zom zoh ws h None zm k
         = call_ra d zom zoh ws h (Some 2) zm k
      /\ call_ra d zom zoh ws h zh None k
         = call_ra d zom zoh ws h zh (Some 10) k
      /\ call_ra d zom zoh ws h zh zm None
         = call_ra d zom zoh ws h zh zm (Some 0.41))
  /\ (forall lat net_rad t ws svp avp delta_svp d psy ra pa pres rs cp shf
             : option R,
      call_penman_monteith lat net_rad t ws svp avp delta_svp d psy ra pa
        pres None cp shf
      = call_penman_monteith lat net_rad t ws svp avp delta_svp d psy ra pa
          pres (Some 78) cp shf
      /\ call_penman_monteith lat net_rad t ws svp avp delta_svp d psy ra
           pa pres rs None shf
         = call_penman_monteith lat net_rad t ws svp avp delta_svp d psy ra
             pa pres rs (Some 0.001013) shf
      /\ call_penman_monteith lat net_rad t ws svp avp delta_svp d psy ra
           pa pres rs cp None
         = call_penman_monteith lat net_rad t ws svp avp delta_svp d psy ra
             pa pres rs cp (Some 0))
  /\ (forall LAIactive : option R,
      call_rs LAIactive None = Raise TypeError).
Proof.
  split; [| split; [| split]].
  - repeat split.
  - intros d zom zoh ws h zh zm k.
    destruct d, zom, zoh, ws; repeat split; reflexivity.
  - intros lat net_rad t ws svp avp delta_svp d psy ra pa pres rs cp shf.
    destruct lat, net_rad, t, ws, svp, avp, delta_svp, d, psy, ra, pa, pres;
      repeat split; try reflexivity.
    assert (E : 0.0 = 0) by lra.
    destruct rs, cp; unfold call_penman_monteith; simpl; rewrite E;
      reflexivity.
  - intros [v |]; reflexivity.
Qed.

(** The claim C9 fails for [rl]: [rs(1.44)] raises [TypeError], it does not
    behave as [rs(1.44, 100)], which returns. *)
Lemma rs_has_no_default_rl :
  call_rs (Some 1.44) None = Raise TypeError
  /\ call_rs (Some 1.44) (Some 100) = Ok (100 / 1.44)
  /\ call_rs (Some 1.44) None <> call_rs (Some 1.44) (Some 100).
Proof.
  assert (H : call_rs (Some 1.44) (Some 100) = Ok (100 / 1.44)).
  { unfold call_rs. simpl. unfold rs. apply truediv_nonzero. lra. }
  split; [reflexivity | split; [exact H |]].
  rewrite H. discriminate.
Qed.

(** ** A zero aerodynamic resistance in the combiner *)


Lemma truediv_by_86400 (a : Binary64.num) :
  exists q : Binary64.num, Binary64.truediv a (PyFloat 86400) = Ok q.
Proof.
  destruct a as [x | x]; simpl.
  - replace (86400 =? 0)%float with false by (vm_compute; reflexivity).
    eexists; reflexivity.
  - eexists; reflexivity.
Qed.




(** * Further properties of the code *)

(** ** Auxiliary facts *)












(** ** When the combiner fails *)


(** ** Aerodynamic resistance over the canopy geometry *)






(** ** Sign and monotonicity of the combiner *)







(** ** Sign of the air density *)




(** ** Surface resistance over the canopy geometry *)



(** ** A NumPy resistance in the combiner, on binary64 *)

Lemma arith_numpy_r (op : float -> float -> float) (a : Binary64.num)
  (y : float) :
  Binary64.arith op a (NpFloat y) = NpFloat (op (Binary64.value a) y).
Proof. destruct a; reflexivity. Qed.

Lemma arith_numpy_l (op : float -> float -> float) (x : float)
  (b : Binary64.num) :
  Binary64.arith op (NpFloat x) b = NpFloat (op x (Binary64.value b)).
Proof. reflexivity. Qed.

Lemma truediv_numpy_r (a : Binary64.num) (y : float) :
  Binary64.truediv a (NpFloat y)
  = Ok (NpFloat (PrimFloat.div (Binary64.value a) y)).
Proof. destruct a; reflexivity. Qed.

Lemma truediv_numpy_l (x : float) (b : Binary64.num) :
  Binary64.truediv (NpFloat x) b
  = Ok (NpFloat (PrimFloat.div x (Binary64.value b))).
Proof. reflexivity. Qed.

Lemma truediv_python (x y : float) :
  Binary64.truediv (PyFloat x) (PyFloat y)
  = if (y =? 0)%float then Raise ZeroDivisionError
    else Ok (PyFloat (PrimFloat.div x y)).
Proof. reflexivity. Qed.

(** X10: when [ra] is a [numpy.float64], the type of the values the
    function [ra] returns, the divisions by [ra] and by [a2] are NumPy's
    and cannot raise: whatever the binary64 values are, zero included,
    [penman_monteith] raises only if [lat] is a Python float equal to zero,
    and otherwise returns a [numpy.float64]. *)
Theorem penman_monteith_numpy_ra_raises_iff :
  forall (lat net_rad t ws svp avp delta_svp d psy pa pres rs cp shf
          : Binary64.num) (ra : float),
    (forall e : exn,
        Binary64.penman_monteith lat net_rad t ws svp avp delta_svp d psy
          (NpFloat ra) pa pres rs cp shf
        = Raise e
        <-> (exists z : float, lat = PyFloat z /\ (z =? 0)%float = true)
            /\ e = ZeroDivisionError)
    /\ ((forall z : float, lat = PyFloat z -> (z =? 0)%float = false) ->
        exists v : float,
          Binary64.penman_monteith lat net_rad t ws svp avp delta_svp d
            psy (NpFloat ra) pa pres rs cp shf
          = Ok (NpFloat v)).
Proof.
  intros lat net_rad t ws svp avp delta_svp d psy pa pres rs cp shf ra.
  unfold Binary64.penman_monteith.
  destruct (truediv_by_86400
              (Binary64.mul delta_svp (Binary64.sub net_rad shf)))
    as [q1 ->].
  rewrite bind_Ok, truediv_numpy_r, bind_Ok, truediv_numpy_r, bind_Ok.
  unfold Binary64.add, Binary64.mul.
  rewrite !arith_numpy_r.
  destruct lat as [z | z].
  - rewrite (truediv_python 1 z).
    destruct (z =? 0)%float eqn:Ez.
    + split.
      * intros e. simpl. split.
        -- intros H. injection H as <-.
           split; [exists z; now split | reflexivity].
        -- intros [_ ->]. reflexivity.
      * intros H. specialize (H z eq_refl). congruence.
    + rewrite bind_Ok, truediv_numpy_l, bind_Ok, !arith_numpy_l.
      split.
      * intros e. split; [discriminate |].
        intros [[z' [Hz' Hzero]] _]. injection Hz' as <-. congruence.
      * intros _. eexists. reflexivity.
  - rewrite truediv_numpy_r, bind_Ok, truediv_numpy_l, bind_Ok.
    rewrite !arith_numpy_l.
    split.
    + intros e. split; [discriminate |].
      intros [[z' [Hz' _]] _]. discriminate.
    + intros _. eexists. reflexivity.
Qed.

Lemma penman_monteith_numpy_ra_raises_iff_witness :
  exists v : float,
    Binary64.penman_monteith
      (PyFloat 2.45) (PyFloat 15) (PyFloat 20) (PyFloat 2) (PyFloat 2.4)
      (PyFloat 1.4) (PyFloat 0.15) (PyFloat 0.08) (PyFloat 0.067)
      (NpFloat 0) (PyFloat 1.2) (PyFloat 101.3) (PyFloat 78)
      (PyFloat 0.001013) (PyFloat 0)
    = Ok (NpFloat v).
Proof.
  apply penman_monteith_numpy_ra_raises_iff.
  intros z Hz. injection Hz as <-. vm_compute. reflexivity.
Defined.

(** ** The whole chain *)



(** ** Aerodynamic resistance and wind speed *)


